(** * ECDSA signature checker (duzeszanse.py): a shallow embedding

    The script holds four hard-coded signature records, converts their
    hexadecimal fields to integers, prints them and asks [verify_signature]
    for a verdict.  [verify_signature] asks the curve object of the [ecdsa]
    package for its order, guards the range of [r] and [s], turns the
    transaction identifier into an integer "public key" and delegates to
    the package, all inside a [try]/[except].

    The embedding follows the script top to bottom.  Python integers are [Z],
    [bytes] are [list byte], [str] is [string] (ASCII text; a character
    outside ASCII is the bytes of its encoding); exceptions are values of
    [exn] carried by [result]; printing and the call into the [ecdsa] package
    are recorded as events of a trace threaded through the [py] monad.

    The two calls into the package, [SECP256k1.curve.order()] and
    [ecdsa.ecdsa.verify], are parameters of the embedding: each may answer
    or raise.  What the package as it is does with them is fixed in
    [CurveFp_order] and [ecdsa_ecdsa_verify]: its curve object has no
    [order], and its module [ecdsa.ecdsa] has no [verify]. *)

From Stdlib Require Import ZArith List String Ascii Bool Lia.
From Stdlib Require Import Strings.Byte.
From Stdlib Require Import DecimalString HexadecimalString.
From Stdlib Require HexadecimalPos.
Import ListNotations.
Local Open Scope string_scope.
Local Open Scope list_scope.
Local Open Scope Z_scope.

(** ** Python runtime: exceptions and results *)

(** Instances of [Exception].  This is what an [except Exception] clause can
    see; process-control signals deriving from [BaseException] only
    (KeyboardInterrupt, SystemExit) are not part of the model. *)
Inductive exn_class : Type :=
  | BadSignatureError
  | ValueError
  | OtherException (name : string).

Record exn : Type := mk_exn { exn_cls : exn_class; exn_msg : string }.

Inductive result (A : Type) : Type :=
  | Return (a : A)
  | Raise (e : exn).
Arguments Return {A} a.
Arguments Raise {A} e.

Definition rbind {A B} (m : result A) (k : A -> result B) : result B :=
  match m with
  | Return a => k a
  | Raise e => Raise e
  end.

Definition isinstance_BadSignatureError (e : exn) : bool :=
  match exn_cls e with BadSignatureError => true | _ => false end.

(** Every modelled exception derives from [Exception]. *)
Definition isinstance_Exception (e : exn) : bool := true.

(** ** Characters, hexadecimal digits, bytes *)

(** [Py_ISSPACE]: space, \t, \n, \v, \f, \r. *)
Definition is_space (c : ascii) : bool :=
  let k := N_of_ascii c in
  ((k =? 32) || ((9 <=? k) && (k <=? 13)))%N.

(** [_PyLong_DigitValue] restricted to base 16. *)
Definition digit16 (c : ascii) : option Z :=
  let k := Z.of_N (N_of_ascii c) in
  if (48 <=? k) && (k <=? 57) then Some (k - 48)
  else if (97 <=? k) && (k <=? 102) then Some (k - 87)
  else if (65 <=? k) && (k <=? 70) then Some (k - 55)
  else None.

Definition byte_of_Z (v : Z) : byte :=
  match Byte.of_N (Z.to_N v) with
  | Some b => b
  | None => x00
  end.

Definition Z_of_byte (b : byte) : Z := Z.of_N (Byte.to_N b).

(** Lower-case hexadecimal digit of a nibble. *)
Definition hex_char (d : Z) : ascii :=
  ascii_of_N (Z.to_N (if d <? 10 then 48 + d else 87 + d)).

Definition string_of_nat (n : nat) : string :=
  DecimalString.NilZero.string_of_uint (Nat.to_uint n).

(** ** [bytes.fromhex] *)

Definition fromhex_error (pos : nat) : exn :=
  mk_exn ValueError
    ("non-hexadecimal number found in fromhex() arg at position "
       ++ string_of_nat pos)%string.

(** CPython's [_PyBytes_FromHex]: ASCII white space is skipped before each
    byte; a byte is two adjacent hexadecimal digits; anything else is a
    [ValueError] naming the offending position. *)
Fixpoint fromhex_at (pos : nat) (s : string) : result (list byte) :=
  match s with
  | EmptyString => Return []
  | String c rest =>
      if is_space c then fromhex_at (S pos) rest
      else
        match digit16 c with
        | None => Raise (fromhex_error pos)
        | Some top =>
            match rest with
            | EmptyString => Raise (fromhex_error (S pos))
            | String c' rest' =>
                match digit16 c' with
                | None => Raise (fromhex_error (S pos))
                | Some bot =>
                    rbind (fromhex_at (S (S pos)) rest')
                      (fun bs => Return (byte_of_Z (top * 16 + bot) :: bs))
                end
            end
        end
  end.

Definition bytes_fromhex (s : string) : result (list byte) := fromhex_at 0 s.

(** ** [binascii.hexlify] and [bytes.hex] *)

Fixpoint hexlify (bs : list byte) : string :=
  match bs with
  | [] => EmptyString
  | b :: rest =>
      String (hex_char (Z_of_byte b / 16))
        (String (hex_char (Z_of_byte b mod 16)) (hexlify rest))
  end.

(** ** [int(text, 16)] *)

Fixpoint lstrip (s : string) : string :=
  match s with
  | String c rest => if is_space c then lstrip rest else s
  | EmptyString => s
  end.

(** The [ValueError] of [int]; [shown] is the [repr] of the argument. *)
Definition int_error (shown : string) : exn :=
  mk_exn ValueError
    ("invalid literal for int() with base 16: " ++ shown)%string.

(** The digit loop of [PyLong_FromString]: digits with single underscores
    between them.  [prev_us] tells that the previous character was an
    underscore, [seen] that a digit has been read.  Returns the value and
    the unread rest, or [None] for a doubled or trailing underscore. *)
Fixpoint scan_digits (acc : Z) (prev_us seen : bool) (s : string)
  : option (Z * bool * string) :=
  match s with
  | EmptyString => if prev_us then None else Some (acc, seen, s)
  | String c rest =>
      if Ascii.eqb c "_" then
        if prev_us then None else scan_digits acc true seen rest
      else
        match digit16 c with
        | Some d => scan_digits (acc * 16 + d) false true rest
        | None => if prev_us then None else Some (acc, seen, s)
        end
  end.

(** [int(text, 16)] on ASCII text: surrounding white space, an optional
    sign, an optional [0x]/[0X] prefix (one underscore may follow it), then
    the digits.  Text with a character outside ASCII is not in the domain
    of this model ([int] reads the decimal digits and the white space of
    other scripts too); see [is_ascii]. *)
Definition parse_int16 (text : string) : option Z :=
  let s1 := lstrip text in
  let '(neg, s2) :=
    match s1 with
    | String "+" t => (false, t)
    | String "-" t => (true, t)
    | _ => (false, s1)
    end in
  let s3 :=
    match s2 with
    | String "0" (String c t) =>
        if Ascii.eqb c "x" || Ascii.eqb c "X"
        then match t with String "_" t' => t' | _ => t end
        else s2
    | _ => s2
    end in
  match s3 with
  | String "_" _ => None
  | _ =>
      match scan_digits 0 false false s3 with
      | Some (v, true, rest) =>
          match lstrip rest with
          | EmptyString => Some (if neg then - v else v)
          | _ => None
          end
      | _ => None
      end
  end.

(** [int(text, 16)] for a [str].  The message shows the [repr] of the
    text, written here for text that needs no escaping. *)
Definition py_int16 (text : string) : result Z :=
  match parse_int16 text with
  | Some v => Return v
  | None => Raise (int_error ("'" ++ text ++ "'"))
  end.

(** [int(data, 16)] for [bytes] holding ASCII text. *)
Definition py_int16_bytes (data : string) : result Z :=
  match parse_int16 data with
  | Some v => Return v
  | None => Raise (int_error ("b'" ++ data ++ "'"))
  end.

(** [hex(v)] *)
Definition py_hex (v : Z) : string :=
  match v with
  | Z0 => "0x0"
  | Zpos q => ("0x" ++ HexadecimalString.NilEmpty.string_of_uint (Pos.to_hex_uint q))%string
  | Zneg q => ("-0x" ++ HexadecimalString.NilEmpty.string_of_uint (Pos.to_hex_uint q))%string
  end.

(** ** [hashlib.sha256] (FIPS 180-4), on 32-bit words held in [Z] *)

Module Sha256.

Definition wrap32 (x : Z) : Z := x mod 4294967296.
Definition plus32 (x y : Z) : Z := wrap32 (x + y).
Definition rotr32 (k x : Z) : Z :=
  Z.lor (Z.shiftr x k) (wrap32 (Z.shiftl x (32 - k))).
Definition compl32 (x : Z) : Z := Z.lxor x 4294967295.

Definition choose (e f g : Z) : Z :=
  Z.lxor (Z.land e f) (Z.land (compl32 e) g).
Definition majority (a b c : Z) : Z :=
  Z.lxor (Z.lxor (Z.land a b) (Z.land a c)) (Z.land b c).
Definition upper0 (a : Z) : Z :=
  Z.lxor (Z.lxor (rotr32 2 a) (rotr32 13 a)) (rotr32 22 a).
Definition upper1 (e : Z) : Z :=
  Z.lxor (Z.lxor (rotr32 6 e) (rotr32 11 e)) (rotr32 25 e).
Definition lower0 (w : Z) : Z :=
  Z.lxor (Z.lxor (rotr32 7 w) (rotr32 18 w)) (Z.shiftr w 3).
Definition lower1 (w : Z) : Z :=
  Z.lxor (Z.lxor (rotr32 17 w) (rotr32 19 w)) (Z.shiftr w 10).

(** Round constants: the fractional parts of the cube roots of the first
    sixty-four primes. *)
Definition round_constants : list Z :=
  [ 1116352408; 1899447441; 3049323471; 3921009573; 961987163; 1508970993;
    2453635748; 2870763221; 3624381080; 310598401; 607225278; 1426881987;
    1925078388; 2162078206; 2614888103; 3248222580; 3835390401; 4022224774;
    264347078; 604807628; 770255983; 1249150122; 1555081692; 1996064986;
    2554220882; 2821834349; 2952996808; 3210313671; 3336571891; 3584528711;
    113926993; 338241895; 666307205; 773529912; 1294757372; 1396182291;
    1695183700; 1986661051; 2177026350; 2456956037; 2730485921; 2820302411;
    3259730800; 3345764771; 3516065817; 3600352804; 4094571909; 275423344;
    430227734; 506948616; 659060556; 883997877; 958139571; 1322822218;
    1537002063; 1747873779; 1955562222; 2024104815; 2227730452; 2361852424;
    2428436474; 2756734187; 3204031479; 3329325298 ].

Record state : Type := mk_state {
  ha : Z; hb : Z; hc : Z; hd : Z; he : Z; hf : Z; hg : Z; hh : Z }.

Definition initial_state : state :=
  mk_state 1779033703 3144134277 1013904242 2773480762
           1359893119 2600822924 528734635 1541459225.

(** Padding: the byte 0x80, zero bytes up to 56 modulo 64, then the bit
    length on eight bytes, most significant first. *)
Definition be_bytes (width : nat) (v : Z) : list Z :=
  map (fun i => (v / 256 ^ Z.of_nat i) mod 256) (rev (seq 0 width)).

Definition pad (msg : list Z) : list Z :=
  let len := Z.of_nat (List.length msg) in
  msg ++ [128] ++ repeat 0 (Z.to_nat ((55 - len) mod 64))
      ++ be_bytes 8 (8 * len).

Fixpoint words_of (block : list Z) : list Z :=
  match block with
  | b0 :: b1 :: b2 :: b3 :: rest =>
      (((b0 * 256 + b1) * 256 + b2) * 256 + b3) :: words_of rest
  | _ => []
  end.

(** The message schedule, latest word first while it is extended. *)
Fixpoint extend (steps : nat) (recent : list Z) : list Z :=
  match steps with
  | O => recent
  | S k =>
      let w := plus32 (plus32 (plus32 (lower1 (nth 1 recent 0))
                                      (nth 6 recent 0))
                              (lower0 (nth 14 recent 0)))
                      (nth 15 recent 0) in
      extend k (w :: recent)
  end.

Definition schedule (block : list Z) : list Z :=
  rev (extend 48 (rev (words_of block))).

Definition round (st : state) (kw : Z * Z) : state :=
  let t1 := plus32 (plus32 (plus32 (plus32 (hh st) (upper1 (he st)))
                                   (choose (he st) (hf st) (hg st)))
                           (fst kw))
                   (snd kw) in
  let t2 := plus32 (upper0 (ha st)) (majority (ha st) (hb st) (hc st)) in
  mk_state (plus32 t1 t2) (ha st) (hb st) (hc st)
           (plus32 (hd st) t1) (he st) (hf st) (hg st).

Definition compress (st : state) (block : list Z) : state :=
  let out := fold_left round (combine round_constants (schedule block)) st in
  mk_state (plus32 (ha st) (ha out)) (plus32 (hb st) (hb out))
           (plus32 (hc st) (hc out)) (plus32 (hd st) (hd out))
           (plus32 (he st) (he out)) (plus32 (hf st) (hf out))
           (plus32 (hg st) (hg out)) (plus32 (hh st) (hh out)).

Fixpoint blocks (fuel : nat) (data : list Z) : list (list Z) :=
  match fuel, data with
  | S k, _ :: _ => firstn 64 data :: blocks k (skipn 64 data)
  | _, _ => []
  end.

Definition word_bytes (w : Z) : list byte :=
  [ byte_of_Z (w / 16777216); byte_of_Z (w / 65536 mod 256);
    byte_of_Z (w / 256 mod 256); byte_of_Z (w mod 256) ].

Definition digest_bytes (st : state) : list byte :=
  word_bytes (ha st) ++ word_bytes (hb st) ++ word_bytes (hc st)
    ++ word_bytes (hd st) ++ word_bytes (he st) ++ word_bytes (hf st)
    ++ word_bytes (hg st) ++ word_bytes (hh st).

(** [hashlib.sha256(data).digest()] *)
Definition digest (data : list byte) : list byte :=
  let padded := pad (map Z_of_byte data) in
  digest_bytes (fold_left compress (blocks (List.length padded) padded) initial_state).

(** [hashlib.sha256(data).hexdigest()] *)
Definition hexdigest (data : list byte) : string := hexlify (digest data).

End Sha256.

(** ** Effects: the trace of a run *)

(** What a run does to the outside: lines written by [print], and calls
    into the signature check of the [ecdsa] package with the arguments they
    were given. *)
Inductive event : Type :=
  | Printed (line : string)
  | VerifyCalled (r s z pubkey : Z).

Definition trace : Type := list event.

Definition py (A : Type) : Type := trace -> result A * trace.

Definition ret {A} (a : A) : py A := fun t => (Return a, t).

Definition bind {A B} (m : py A) (k : A -> py B) : py B :=
  fun t =>
    match m t with
    | (Return a, t') => k a t'
    | (Raise e, t') => (Raise e, t')
    end.

Definition lift {A} (m : result A) : py A := fun t => (m, t).

Definition print (line : string) : py unit :=
  fun t => (Return tt, t ++ [Printed line]).

Notation "x <- m ;; k" := (bind m (fun x => k))
  (at level 61, m at next level, right associativity).
Notation "m ;;; k" := (bind m (fun _ => k))
  (at level 61, right associativity).

(** [try: body except C1: h1 except C2 as e: h2]: the first clause whose
    class test accepts the exception handles it; with no such clause the
    exception goes on to the caller. *)
Definition clause (A : Type) : Type := (exn -> bool) * (exn -> py A).

Fixpoint dispatch {A} (clauses : list (clause A)) (e : exn) : py A :=
  match clauses with
  | [] => fun t => (Raise e, t)
  | (accepts, handler) :: others =>
      if accepts e then handler e else dispatch others e
  end.

Definition try_except {A} (body : py A) (clauses : list (clause A)) : py A :=
  fun t =>
    match body t with
    | (Return a, t') => (Return a, t')
    | (Raise e, t') => dispatch clauses e t'
    end.

Definition stdout (t : trace) : list string :=
  flat_map (fun ev => match ev with Printed l => [l] | _ => [] end) t.

Definition verify_calls (t : trace) : list (Z * Z * Z * Z) :=
  flat_map (fun ev => match ev with
                      | VerifyCalled r s z q => [(r, s, z, q)]
                      | _ => []
                      end) t.

(** ** The [ecdsa] package *)

(** The order of the group of secp256k1 (SEC 2, section 2.4.1): the [n]
    of the script's records. *)
Module SECP256k1.
Definition order : Z :=
  0xFFFFFFFFFFFFFFFFFFFFFFFFFFFFFFFEBAAEDCE6AF48A03BBFD25E8CD0364141.
End SECP256k1.

(** The package as it is.  [SECP256k1.curve] is a [CurveFp], which has
    [p], [a], [b], [cofactor] and [contains_point] and no [order]: line 16
    raises.  The module [ecdsa.ecdsa] defines no name [verify]: the import
    of line 3 raises (the interpreter adds the path of the module to the
    message). *)
Definition no_order_attribute : exn :=
  mk_exn (OtherException "AttributeError")
    "'CurveFp' object has no attribute 'order'".
Definition CurveFp_order : result Z := Raise no_order_attribute.

Definition cannot_import_verify : exn :=
  mk_exn (OtherException "ImportError")
    "cannot import name 'verify' from 'ecdsa.ecdsa'".
Definition ecdsa_ecdsa_verify : result (Z * Z -> Z -> Z -> result bool) :=
  Raise cannot_import_verify.

(** [ecdsa.util.string_to_number]: [int(binascii.hexlify(string), 16)]. *)
Definition string_to_number (bs : list byte) : result Z :=
  py_int16_bytes (hexlify bs).

(** ** The script *)

Section Script.

(** What [SECP256k1.curve.order()] does when line 16 runs: it answers a
    number or raises. *)
Variable curve_order : result Z.

(** The name [verify] that line 24 calls: any function of the signature
    pair, the digest and the key material that returns a verdict or
    raises. *)
Variable verify : Z * Z -> Z -> Z -> result bool.

Definition call_verify (sig : Z * Z) (z pubkey : Z) : py bool :=
  fun t =>
    (verify sig z pubkey, t ++ [VerifyCalled (fst sig) (snd sig) z pubkey]).

(** Lines 7-9. *)
Definition calculate_z (txid : string) : result string :=
  rbind (bytes_fromhex txid) (fun bs => Return (Sha256.hexdigest bs)).

(** Line 23: the "public key" read off the identifier. *)
Definition pubkey_of_txid (txid : string) : result Z :=
  rbind (bytes_fromhex txid) string_to_number.

(** Lines 15-24: the [try] block.  [order] is what the script asks the
    curve object of [SECP256k1] for; the argument [n] is not used. *)
Definition verify_signature_body (txid : string) (r s z n : Z) : py bool :=
  order <- lift curve_order ;;
  if negb (((0 <? r) && (r <? order)) && ((0 <? s) && (s <? order)))
  then ret false
  else
    pubkey <- lift (pubkey_of_txid txid) ;;
    call_verify (r, s) z pubkey.

Definition error_line (e : exn) : string :=
  ("Błąd weryfikacji podpisu: " ++ exn_msg e)%string.

(** Lines 12-30. *)
Definition verify_signature (txid : string) (r s z n : Z) : py bool :=
  try_except (verify_signature_body txid r s z n)
    [ (isinstance_BadSignatureError, fun _ => ret false);
      (isinstance_Exception, fun e => print (error_line e) ;;; ret false) ].

End Script.

(** Lines 33-66: the records.  Each is a dictionary with the same six keys;
    the numbers are kept as the hexadecimal text the script stores. *)
Module Sig.
Record t : Type := mk {
  TXID : string;
  r : string;
  s : string;
  z : string;
  Low_S : bool;
  n : string }.
End Sig.

Definition sample_txid : string :=
  "44b4cca7a2306c6af2a931a50f9138bf87bf13ba41cd5ce5b6239e930b34793e".
Definition sample_z : string :=
  "0xbeb21d89f2ebdc645094135d999aa79d386711a6a5f0289eba893c5515a4856f".
Definition sample_n : string :=
  "0xfffffffffffffffffffffffffffffffebaaedce6af48a03bbfd25e8cd0364141".

Definition signatures : list Sig.t :=
  [ Sig.mk sample_txid
      "0xfbc2b9a148f7c136fd5ab60d9a1317624d90630ccdf1b65562977f370d999841"
      "0x3f598a19e8e4eefec27af6fb8765132b205f45445d4b3755235d232d6f2ee41c"
      sample_z true sample_n;
    Sig.mk sample_txid
      "0x8ca2698b53fffcf9d064b1ca1313ff08e08e47d3bbb97a4f9d54dd0e3164af9a"
      "0x65913d2b007ebedf451e0068b368a33ff0fdb9725370a8cecc34e2e8449f143c"
      sample_z true sample_n;
    Sig.mk sample_txid
      "0xefe66ff0cc452d2dc373db4cf2fa848944e32dbfac6c46542d2ed03a22cbb081"
      "0x1726f4b1dc28ca118aea9d6a4fc7f9345c6cb071b7cbd95b22456c45539cb5fa"
      sample_z true sample_n;
    Sig.mk sample_txid
      "0x1e68b7d13178cd65061c2bb57623efb2f99be1577465a2ec0532f697113e4e34"
      "0x16779876223604f100c9e444feea939aa828928dd2a67ca4a2ac1afe1edfa310"
      sample_z true sample_n ].

Definition str_of_bool (b : bool) : string := if b then "True" else "False".

Definition valid_line : string := "  🔑 Podpis jest poprawny!".
Definition invalid_line : string := "  ❌ Podpis jest niepoprawny!".
Definition rule_line : string :=
  "------------------------------------------------".

Section Loop.

Variable curve_order : result Z.
Variable verify : Z * Z -> Z -> Z -> result bool.

(** Lines 70-90: the body of the loop, for one record. *)
Definition report (signature : Sig.t) : py unit :=
  let txid := Sig.TXID signature in
  r <- lift (py_int16 (Sig.r signature)) ;;
  s <- lift (py_int16 (Sig.s signature)) ;;
  z <- lift (py_int16 (Sig.z signature)) ;;
  n <- lift (py_int16 (Sig.n signature)) ;;
  print ("🔹 Podpis dla TXID " ++ txid ++ ":")%string ;;;
  print ("  r = " ++ py_hex r)%string ;;;
  print ("  s = " ++ py_hex s)%string ;;;
  print ("  z (computed) = " ++ py_hex z)%string ;;;
  print ("  Low-S? = " ++ str_of_bool (Sig.Low_S signature))%string ;;;
  print ("  n = " ++ py_hex n)%string ;;;
  valid_signature <- verify_signature curve_order verify txid r s z n ;;
  (if valid_signature : bool then print valid_line else print invalid_line) ;;;
  print rule_line.

(** Line 69: [for signature in ...]. *)
Fixpoint for_each (records : list Sig.t) : py unit :=
  match records with
  | [] => ret tt
  | signature :: rest => report signature ;;; for_each rest
  end.

End Loop.

(** The script as shipped, run from an empty trace: the imports of lines
    1 to 4, then the loop with the package as it is.  What it wrote and,
    when an exception reached the top level, that exception. *)
Definition main : result unit * trace :=
  match ecdsa_ecdsa_verify with
  | Return verify => for_each CurveFp_order verify signatures []
  | Raise e => (Raise e, [])
  end.

(** ** Low-S *)

(** Modelled from the spec: the low-S predicate [isLowS(s, n)], true iff
    [s <= n/2].  The script has no such function; it stores a flag in each
    record. *)
Definition isLowS (s n : Z) : bool := s <=? n / 2.

(** ** Vocabulary of the statements *)

(** The guard of line 19. *)
Definition in_range (order r s : Z) : bool :=
  ((0 <? r) && (r <? order)) && ((0 <? s) && (s <? order)).

(** Text of ASCII characters only: the domain on which the models of
    [int] and [str.upper] are those functions. *)
Definition is_ascii (text : string) : bool :=
  forallb (fun c => (N_of_ascii c <? 128)%N) (list_ascii_of_string text).

(** Unsigned big-endian reading of a byte string. *)
Definition be_int (bs : list byte) : Z :=
  fold_left (fun acc b => acc * 256 + Z_of_byte b) bs 0.

Definition is_hex_digit (c : ascii) : bool :=
  match digit16 c with Some _ => true | None => false end.

(** "Valid hex of even length", as the spec words the domain of
    [digestFromIdentifier]. *)
Definition valid_hex_even_length (text : string) : bool :=
  Nat.even (String.length text)
  && forallb is_hex_digit (list_ascii_of_string text).

Definition has_no_space (text : string) : bool :=
  forallb (fun c => negb (is_space c)) (list_ascii_of_string text).

(** What the handlers of [verify_signature] print for the outcome of the
    [try] block. *)
Definition diagnostic (outcome : result bool) : list string :=
  match outcome with
  | Return _ => []
  | Raise e =>
      if isinstance_BadSignatureError e then []
      else [error_line e]
  end.

(** The block of lines the loop writes for a record whose numeric fields
    read as r, s, z, n: six lines of data, the diagnostic of
    [verify_signature] if any, the verdict, a rule. *)
Definition block_lines (curve_order : result Z)
    (verify : Z * Z -> Z -> Z -> result bool)
    (signature : Sig.t) (r s z n : Z) : list string :=
  let outcome :=
    fst (verify_signature_body curve_order verify
           (Sig.TXID signature) r s z n []) in
  [ "🔹 Podpis dla TXID " ++ Sig.TXID signature ++ ":";
    "  r = " ++ py_hex r;
    "  s = " ++ py_hex s;
    "  z (computed) = " ++ py_hex z;
    "  Low-S? = " ++ str_of_bool (Sig.Low_S signature);
    "  n = " ++ py_hex n ]%string
  ++ diagnostic outcome
  ++ [ match outcome with Return true => valid_line | _ => invalid_line end;
       rule_line ].

Definition int_or_zero (text : string) : Z :=
  match py_int16 text with Return v => v | Raise _ => 0 end.

Definition expected_block (curve_order : result Z)
    (verify : Z * Z -> Z -> Z -> result bool)
    (signature : Sig.t) : list string :=
  block_lines curve_order verify signature
    (int_or_zero (Sig.r signature)) (int_or_zero (Sig.s signature))
    (int_or_zero (Sig.z signature)) (int_or_zero (Sig.n signature)).

(** The call into the package's check that the loop makes for a record,
    if it makes one. *)
Definition expected_calls (curve_order : result Z) (signature : Sig.t)
  : list (Z * Z * Z * Z) :=
  let r := int_or_zero (Sig.r signature) in
  let s := int_or_zero (Sig.s signature) in
  let z := int_or_zero (Sig.z signature) in
  match curve_order with
  | Return order =>
      if in_range order r s then
        match pubkey_of_txid (Sig.TXID signature) with
        | Return pubkey => [(r, s, z, pubkey)]
        | Raise _ => []
        end
      else []
  | Raise _ => []
  end.

(** What [bytes.fromhex] decodes, counting positions from [pos], with the
    error forgotten. *)
Definition decoded_at (pos : nat) (text : string) : option (list byte) :=
  match fromhex_at pos text with
  | Return bs => Some bs
  | Raise _ => None
  end.

(** [str.upper] on ASCII text. *)
Definition upper_char (c : ascii) : ascii :=
  let k := N_of_ascii c in
  if ((97 <=? k) && (k <=? 122))%N then ascii_of_N (k - 32) else c.

Fixpoint upper (text : string) : string :=
  match text with
  | EmptyString => EmptyString
  | String c rest => String (upper_char c) (upper rest)
  end.

(** The number a row of hexadecimal digits denotes, most significant digit
    first, continuing from [acc]. *)
Fixpoint uint_value (acc : Z) (d : Hexadecimal.uint) : Z :=
  match d with
  | Hexadecimal.Nil => acc
  | Hexadecimal.D0 l => uint_value (acc * 16 + 0) l
  | Hexadecimal.D1 l => uint_value (acc * 16 + 1) l
  | Hexadecimal.D2 l => uint_value (acc * 16 + 2) l
  | Hexadecimal.D3 l => uint_value (acc * 16 + 3) l
  | Hexadecimal.D4 l => uint_value (acc * 16 + 4) l
  | Hexadecimal.D5 l => uint_value (acc * 16 + 5) l
  | Hexadecimal.D6 l => uint_value (acc * 16 + 6) l
  | Hexadecimal.D7 l => uint_value (acc * 16 + 7) l
  | Hexadecimal.D8 l => uint_value (acc * 16 + 8) l
  | Hexadecimal.D9 l => uint_value (acc * 16 + 9) l
  | Hexadecimal.Da l => uint_value (acc * 16 + 10) l
  | Hexadecimal.Db l => uint_value (acc * 16 + 11) l
  | Hexadecimal.Dc l => uint_value (acc * 16 + 12) l
  | Hexadecimal.Dd l => uint_value (acc * 16 + 13) l
  | Hexadecimal.De l => uint_value (acc * 16 + 14) l
  | Hexadecimal.Df l => uint_value (acc * 16 + 15) l
  end.

(** All four numeric fields of a record are ASCII text. *)
Definition ascii_fields (signature : Sig.t) : bool :=
  is_ascii (Sig.r signature) && is_ascii (Sig.s signature)
  && is_ascii (Sig.z signature) && is_ascii (Sig.n signature).

(** All four numeric fields of a record are base-16 literals. *)
Definition numeric_fields_ok (signature : Sig.t) : bool :=
  match py_int16 (Sig.r signature), py_int16 (Sig.s signature),
        py_int16 (Sig.z signature), py_int16 (Sig.n signature) with
  | Return _, Return _, Return _, Return _ => true
  | _, _, _, _ => false
  end.

(** The 32 bytes the script's identifier stands for. *)
Definition sample_txid_bytes : list byte :=
  [ x44; xb4; xcc; xa7; xa2; x30; x6c; x6a;
    xf2; xa9; x31; xa5; x0f; x91; x38; xbf;
    x87; xbf; x13; xba; x41; xcd; x5c; xe5;
    xb6; x23; x9e; x93; x0b; x34; x79; x3e ].

(** The numbers of the script's first record. *)
Definition sample_r1 : Z :=
  0xfbc2b9a148f7c136fd5ab60d9a1317624d90630ccdf1b65562977f370d999841.
Definition sample_s1 : Z :=
  0x3f598a19e8e4eefec27af6fb8765132b205f45445d4b3755235d232d6f2ee41c.
Definition sample_z1 : Z :=
  0xbeb21d89f2ebdc645094135d999aa79d386711a6a5f0289eba893c5515a4856f.

(** A record whose identifier is not hexadecimal. *)
Definition bad_txid_record : Sig.t :=
  Sig.mk "zz"
    "0xfbc2b9a148f7c136fd5ab60d9a1317624d90630ccdf1b65562977f370d999841"
    "0x3f598a19e8e4eefec27af6fb8765132b205f45445d4b3755235d232d6f2ee41c"
    sample_z true sample_n.

(** A record whose r is not a base-16 literal. *)
Definition bad_r_record : Sig.t :=
  Sig.mk sample_txid "0xzz"
    "0x3f598a19e8e4eefec27af6fb8765132b205f45445d4b3755235d232d6f2ee41c"
    sample_z true sample_n.

(** Two behaviours of a check, used to run the script on concrete input
    where a name [verify] has to be supplied: one that rejects every
    signature, one that raises whenever it is called. *)
Definition verdict_false : Z * Z -> Z -> Z -> result bool :=
  fun _ _ _ => Return false.
Definition raising (e : exn) : Z * Z -> Z -> Z -> result bool :=
  fun _ _ _ => Raise e.
Definition division_by_zero : exn :=
  mk_exn (OtherException "ZeroDivisionError") "division by zero".

(** * Properties *)

(** ** The runtime model on known values *)

Example sha256_abc :
  Sha256.hexdigest [x61; x62; x63]
  = "ba7816bf8f01cfea414140de5dae2223b00361a396177a9cb410ff61f20015ad".
Proof. vm_compute. reflexivity. Qed.
Example sha256_empty :
  Sha256.hexdigest []
  = "e3b0c44298fc1c149afbf4c8996fb92427ae41e4649b934ca495991b7852b855".
Proof. vm_compute. reflexivity. Qed.
(** A message of 56 bytes needs a second block. *)
Example sha256_two_blocks :
  Sha256.hexdigest (repeat x61 56)
  = "b35439a4ac6f0948b6d6f9e3c6af0f5f590ce20f1bde7090ef7970686ec6738a".
Proof. vm_compute. reflexivity. Qed.
Example fromhex_pairs : bytes_fromhex "44b4 0A" = Return [x44; xb4; x0a].
Proof. reflexivity. Qed.
Example fromhex_odd : bytes_fromhex "abc" = Raise (fromhex_error 3).
Proof. reflexivity. Qed.
Example int16_prefixed : py_int16 "0xfF_0" = Return 4080.
Proof. reflexivity. Qed.
Example int16_bad : py_int16 "0xzz" = Raise (int_error "'0xzz'").
Proof. reflexivity. Qed.
Example hex_255 : py_hex 255 = "0xff".
Proof. reflexivity. Qed.
(** ** The runtime model *)

(** Induction on the length of a text: [fromhex_at] consumes one or two
    characters at a time. *)
Lemma string_length_ind (P : string -> Prop) :
  (forall text,
      (forall shorter,
          (String.length shorter < String.length text)%nat -> P shorter) ->
      P text) ->
  forall text, P text.
Proof.
  intros step text.
  assert (H : forall k shorter,
             (String.length shorter < k)%nat -> P shorter).
  { induction k as [|k IHk]; intros shorter Hlen; [lia|].
    apply step. intros s' Hs'. apply IHk. lia. }
  apply (H (S (String.length text))). lia.
Qed.

Lemma fromhex_at_raises pos text e :
  fromhex_at pos text = Raise e -> exn_cls e = ValueError.
Proof.
  revert pos.
  induction text as [text IH] using string_length_ind.
  intros pos; destruct text as [|c rest]; simpl; [discriminate|].
  destruct (is_space c).
  - apply IH; simpl; lia.
  - destruct (digit16 c); [|intros [= <-]; reflexivity].
    destruct rest as [|c' rest']; [intros [= <-]; reflexivity|].
    destruct (digit16 c'); [|intros [= <-]; reflexivity].
    destruct (fromhex_at (S (S pos)) rest') eqn:E; simpl; [discriminate|].
    intros [= <-]. apply (IH rest') in E; [exact E|simpl; lia].
Qed.

Lemma py_int16_raises text e :
  py_int16 text = Raise e -> exn_cls e = ValueError.
Proof.
  unfold py_int16. destruct (parse_int16 text); [discriminate|].
  intros [= <-]. reflexivity.
Qed.

Lemma stdout_app t1 t2 : stdout (t1 ++ t2) = stdout t1 ++ stdout t2.
Proof. unfold stdout. apply flat_map_app. Qed.

Lemma verify_calls_app t1 t2 :
  verify_calls (t1 ++ t2) = verify_calls t1 ++ verify_calls t2.
Proof. unfold verify_calls. apply flat_map_app. Qed.

(** ** [verify_signature], case by case *)

Lemma stdout_printed lines : stdout (map Printed lines) = lines.
Proof.
  induction lines as [|l ls IH]; [reflexivity|].
  change (stdout (map Printed (l :: ls)))
    with (l :: stdout (map Printed ls)).
  rewrite IH. reflexivity.
Qed.

Lemma verify_calls_printed lines : verify_calls (map Printed lines) = [].
Proof. induction lines as [|l ls IH]; [reflexivity|exact IH]. Qed.

Section VerifySignature.

Variable curve_order : result Z.
Variable verify : Z * Z -> Z -> Z -> result bool.

(** Line 16 raises: the block ends there. *)
Lemma body_no_order txid r s z n t e :
  curve_order = Raise e ->
  verify_signature_body curve_order verify txid r s z n t = (Raise e, t).
Proof.
  intros H. unfold verify_signature_body, bind, lift. rewrite H. reflexivity.
Qed.

Lemma body_out_of_range txid r s z n t order :
  curve_order = Return order -> in_range order r s = false ->
  verify_signature_body curve_order verify txid r s z n t = (Return false, t).
Proof.
  intros H R. unfold verify_signature_body, bind, lift. rewrite H.
  unfold in_range in R. rewrite R. reflexivity.
Qed.

Lemma body_bad_identifier txid r s z n t order e :
  curve_order = Return order -> in_range order r s = true ->
  pubkey_of_txid txid = Raise e ->
  verify_signature_body curve_order verify txid r s z n t = (Raise e, t).
Proof.
  intros H R K. unfold verify_signature_body, bind, lift. rewrite H.
  unfold in_range in R. rewrite R, K. reflexivity.
Qed.

Lemma body_delegates txid r s z n t order pubkey :
  curve_order = Return order -> in_range order r s = true ->
  pubkey_of_txid txid = Return pubkey ->
  verify_signature_body curve_order verify txid r s z n t
  = (verify (r, s) z pubkey, t ++ [VerifyCalled r s z pubkey]).
Proof.
  intros H R K. unfold verify_signature_body, bind, lift, call_verify.
  rewrite H. unfold in_range in R. rewrite R, K. reflexivity.
Qed.

(** The four ways through the block. *)
Lemma body_cases txid r s z n t :
  (exists e,
      curve_order = Raise e
      /\ verify_signature_body curve_order verify txid r s z n t
         = (Raise e, t))
  \/ (exists order,
         curve_order = Return order /\ in_range order r s = false
         /\ verify_signature_body curve_order verify txid r s z n t
            = (Return false, t))
  \/ (exists order e,
         curve_order = Return order /\ in_range order r s = true
         /\ pubkey_of_txid txid = Raise e
         /\ verify_signature_body curve_order verify txid r s z n t
            = (Raise e, t))
  \/ (exists order pubkey,
         curve_order = Return order /\ in_range order r s = true
         /\ pubkey_of_txid txid = Return pubkey
         /\ verify_signature_body curve_order verify txid r s z n t
            = (verify (r, s) z pubkey, t ++ [VerifyCalled r s z pubkey])).
Proof.
  destruct curve_order as [order|e] eqn:H.
  - destruct (in_range order r s) eqn:R.
    + destruct (pubkey_of_txid txid) as [k|e] eqn:K.
      * right. right. right. exists order, k.
        repeat (split; [reflexivity || assumption|]).
        unfold verify_signature_body, bind, lift, call_verify.
        unfold in_range in R. rewrite R, K. reflexivity.
      * right. right. left. exists order, e.
        repeat (split; [reflexivity || assumption|]).
        unfold verify_signature_body, bind, lift.
        unfold in_range in R. rewrite R, K. reflexivity.
    + right. left. exists order.
      repeat (split; [reflexivity || assumption|]).
      unfold verify_signature_body, bind, lift.
      unfold in_range in R. rewrite R. reflexivity.
  - left. exists e. split; reflexivity.
Qed.

(** The [try]/[except] around the block: a verdict passes through, any
    exception becomes [False], and only an exception other than
    [BadSignatureError] prints. *)
Lemma verify_signature_handles txid r s z n t :
  verify_signature curve_order verify txid r s z n t
  = let (outcome, t') :=
      verify_signature_body curve_order verify txid r s z n t in
    (Return match outcome with Return b => b | Raise _ => false end,
     t' ++ map Printed (diagnostic outcome)).
Proof.
  unfold verify_signature, try_except.
  destruct (verify_signature_body curve_order verify txid r s z n t)
    as [[b|e] t'].
  - simpl. rewrite app_nil_r. reflexivity.
  - unfold diagnostic. simpl.
    destruct (isinstance_BadSignatureError e); simpl.
    + rewrite app_nil_r. reflexivity.
    + reflexivity.
Qed.

(** The block reads the trace nowhere: it only appends to it. *)
Lemma body_frame txid r s z n t :
  verify_signature_body curve_order verify txid r s z n t
  = (fst (verify_signature_body curve_order verify txid r s z n []),
     t ++ snd (verify_signature_body curve_order verify txid r s z n [])).
Proof.
  unfold verify_signature_body, bind, lift, call_verify, ret.
  destruct curve_order as [order|e]; cbn [fst snd];
    [|rewrite app_nil_r; reflexivity].
  destruct (negb (((0 <? r) && (r <? order)) && ((0 <? s) && (s <? order))));
    cbn [fst snd]; [rewrite app_nil_r; reflexivity|].
  destruct (pubkey_of_txid txid); cbn [fst snd app];
    [reflexivity|rewrite app_nil_r; reflexivity].
Qed.

Lemma verify_signature_frame txid r s z n t :
  verify_signature curve_order verify txid r s z n t
  = (fst (verify_signature curve_order verify txid r s z n []),
     t ++ snd (verify_signature curve_order verify txid r s z n [])).
Proof.
  rewrite !verify_signature_handles.
  rewrite (body_frame txid r s z n t).
  destruct (verify_signature_body curve_order verify txid r s z n [])
    as [o t'].
  simpl. rewrite app_assoc. reflexivity.
Qed.

(** The block itself prints nothing; only the handlers do. *)
Lemma body_prints_nothing txid r s z n :
  stdout (snd (verify_signature_body curve_order verify txid r s z n []))
  = [].
Proof.
  destruct (body_cases txid r s z n [])
    as [(e & _ & B) | [(o & _ & _ & B) | [(o & e & _ & _ & _ & B)
       | (o & k & _ & _ & _ & B)]]];
    rewrite B; reflexivity.
Qed.

(** The calls the block makes: one, when line 16 answers, the guard passes
    and the identifier gives key material. *)
Lemma body_calls txid r s z n :
  verify_calls
    (snd (verify_signature_body curve_order verify txid r s z n []))
  = match curve_order with
    | Return order =>
        if in_range order r s then
          match pubkey_of_txid txid with
          | Return pubkey => [(r, s, z, pubkey)]
          | Raise _ => []
          end
        else []
    | Raise _ => []
    end.
Proof.
  destruct (body_cases txid r s z n [])
    as [(e & H & B) | [(o & H & R & B) | [(o & e & H & R & K & B)
       | (o & k & H & R & K & B)]]];
    rewrite B, H; try rewrite R; try rewrite K; reflexivity.
Qed.

End VerifySignature.

(** With the package as it is, every call ends the same way: line 16
    raises, the clause of line 28 prints its message and returns [False];
    the guard, the identifier and the check are never looked at. *)
Lemma verify_signature_as_packaged verify txid r s z n t :
  verify_signature CurveFp_order verify txid r s z n t
  = (Return false, t ++ [Printed (error_line no_order_attribute)]).
Proof. reflexivity. Qed.

Lemma in_range_false order r s :
  r <= 0 \/ order <= r \/ s <= 0 \/ order <= s ->
  in_range order r s = false.
Proof.
  unfold in_range. intros H.
  destruct (Z.ltb_spec 0 r), (Z.ltb_spec r order),
    (Z.ltb_spec 0 s), (Z.ltb_spec s order);
    simpl; try reflexivity; lia.
Qed.

(** ** The claims about [verify_signature] *)

(** C2.  When [r] or [s] lies outside the open interval from 0 to the order
    of the curve (so in particular for r = 0, s = 0, r = n, s = n),
    [verify_signature] returns [False] and the check of the package is not
    called.  This holds whatever line 16 does: if the curve object answers
    its order, the guard of line 19 rejects and nothing is printed; if
    line 16 raises, as with the package as it is, the call ends there, with
    the diagnostic of line 29. *)
Theorem out_of_range_rejected_before_curve_arithmetic :
  forall curve_order verify txid r s z n t,
    match curve_order with
    | Return order => r <= 0 \/ order <= r \/ s <= 0 \/ order <= s
    | Raise _ => True
    end ->
    fst (verify_signature curve_order verify txid r s z n t) = Return false
    /\ verify_calls (snd (verify_signature curve_order verify txid r s z n t))
       = verify_calls t
    /\ stdout (snd (verify_signature curve_order verify txid r s z n t))
       = stdout t
         ++ match curve_order with
            | Return _ => []
            | Raise e => diagnostic (@Raise bool e)
            end.
Proof.
  intros curve_order verify txid r s z n t H.
  rewrite verify_signature_handles.
  destruct curve_order as [order|e] eqn:E.
  - rewrite (body_out_of_range (Return order) verify txid r s z n t order
               eq_refl (in_range_false order r s H)).
    cbn [fst snd diagnostic map]. rewrite !app_nil_r. repeat split.
  - rewrite (body_no_order (Raise e) verify txid r s z n t e eq_refl).
    cbn [fst snd]. rewrite verify_calls_app, stdout_app.
    rewrite verify_calls_printed, stdout_printed, app_nil_r. repeat split.
Qed.

(** C10.  [verify_signature] is total and never raises: on every input the
    call ends with a boolean.  A verdict of the [try] block is returned as
    it is, and whatever exception the block raises, from the curve object,
    from the decoding of the identifier or from the check, is turned into
    [False]. *)
Theorem verify_signature_never_raises :
  forall curve_order verify txid r s z n t,
    exists b t',
      verify_signature curve_order verify txid r s z n t = (Return b, t')
      /\ (forall e,
             fst (verify_signature_body curve_order verify txid r s z n t)
             = Raise e ->
             b = false)
      /\ (forall v,
             fst (verify_signature_body curve_order verify txid r s z n t)
             = Return v ->
             b = v).
Proof.
  intros curve_order verify txid r s z n t.
  rewrite verify_signature_handles.
  destruct (verify_signature_body curve_order verify txid r s z n t)
    as [[v|e] t'];
    eexists; eexists; (split; [reflexivity|]); simpl; split;
    intros x Hx; congruence.
Qed.

(** C7.  With the package as it is, no run ends as an ordinary invalid
    signature: whatever the arguments and whatever the check would
    answer, the call returns [False] and prints the one diagnostic of the
    missing [order].  Any two runs from the same trace are therefore
    alike in value and in output, and nothing tells an internal error from
    a bad signature. *)
Theorem every_run_ends_in_the_same_diagnostic :
  forall verify txid1 r1 s1 z1 n1 txid2 r2 s2 z2 n2 t,
    verify_signature CurveFp_order verify txid1 r1 s1 z1 n1 t
    = verify_signature CurveFp_order verify txid2 r2 s2 z2 n2 t
    /\ stdout (snd (verify_signature CurveFp_order verify txid1 r1 s1 z1 n1 t))
       = stdout t ++ [error_line no_order_attribute].
Proof.
  intros. rewrite !verify_signature_as_packaged. split; [reflexivity|].
  cbn [snd]. rewrite stdout_app. reflexivity.
Qed.

(** C8, as amended.  [verify_signature] reads no state and changes none
    beyond appending to the trace: from any two starting traces it returns
    the same boolean and appends the same events.  It prints nothing when
    the [try] block ends with a verdict or with [BadSignatureError], and
    exactly one diagnostic line when the block raises anything else; with
    the package as it is the block raises on every call, so every call
    prints that one line. *)
Theorem verify_signature_effects :
  (forall curve_order verify txid r s z n t1 t2,
     exists b events,
       verify_signature curve_order verify txid r s z n t1
       = (Return b, t1 ++ events)
       /\ verify_signature curve_order verify txid r s z n t2
          = (Return b, t2 ++ events)
       /\ stdout events
          = diagnostic
              (fst (verify_signature_body curve_order verify txid r s z n [])))
  /\ (forall verify txid r s z n t,
        stdout (snd (verify_signature CurveFp_order verify txid r s z n t))
        = stdout t ++ [error_line no_order_attribute]).
Proof.
  split;
    [|intros; rewrite verify_signature_as_packaged; cbn [snd];
      rewrite stdout_app; reflexivity].
  intros curve_order verify txid r s z n t1 t2.
  rewrite (verify_signature_frame curve_order verify txid r s z n t1).
  rewrite (verify_signature_frame curve_order verify txid r s z n t2).
  rewrite verify_signature_handles.
  pose proof (body_prints_nothing curve_order verify txid r s z n) as Hq.
  destruct (verify_signature_body curve_order verify txid r s z n [])
    as [o t'].
  cbn [fst snd] in *. eexists. eexists.
  split; [reflexivity|]. split; [reflexivity|].
  cbn [app]. rewrite stdout_app, Hq, stdout_printed. reflexivity.
Qed.

(** ** Hexadecimal text and the integers it denotes *)

Lemma byte_nibbles (b : byte) :
  digit16 (hex_char (Z_of_byte b / 16)) = Some (Z_of_byte b / 16)
  /\ digit16 (hex_char (Z_of_byte b mod 16)) = Some (Z_of_byte b mod 16)
  /\ Z_of_byte b / 16 * 16 + Z_of_byte b mod 16 = Z_of_byte b.
Proof. destruct b; vm_compute; repeat split. Qed.

(** A hexadecimal digit is neither white space, nor a sign, nor an
    underscore, nor the [x] of a prefix. *)
Lemma hex_digit_plain c d :
  digit16 c = Some d ->
  is_space c = false /\ Ascii.eqb c "_" = false
  /\ Ascii.eqb c "x" = false /\ Ascii.eqb c "X" = false
  /\ Ascii.eqb c "+" = false /\ Ascii.eqb c "-" = false.
Proof.
  destruct c as [[] [] [] [] [] [] [] []]; vm_compute;
    intros H; try discriminate H; repeat split.
Qed.

Definition int16_tail (scanned : option (Z * bool * string)) : option Z :=
  match scanned with
  | Some (v, true, rest) =>
      match lstrip rest with
      | EmptyString => Some v
      | _ => None
      end
  | _ => None
  end.

(** On text that starts with two digits there is no sign and no prefix to
    take off: the digit loop reads it from its first character. *)
Lemma parse_int16_digits c1 c2 rest d1 d2 :
  digit16 c1 = Some d1 -> digit16 c2 = Some d2 ->
  parse_int16 (String c1 (String c2 rest))
  = int16_tail (scan_digits 0 false false (String c1 (String c2 rest))).
Proof.
  intros H1 H2.
  destruct (hex_digit_plain c2 d2 H2) as (_ & _ & Hx & HX & _).
  destruct (hex_digit_plain c1 d1 H1) as (Hsp & _).
  assert (L : lstrip (String c1 (String c2 rest))
              = String c1 (String c2 rest)).
  { simpl. rewrite Hsp. reflexivity. }
  unfold parse_int16, int16_tail. rewrite L. clear L Hsp.
  destruct c1 as [[] [] [] [] [] [] [] []];
    try (vm_compute in H1; discriminate H1);
    cbv beta iota zeta; try rewrite Hx, HX; reflexivity.
Qed.

Lemma scan_digits_hexlify bs acc seen :
  scan_digits acc false seen (hexlify bs)
  = Some (fold_left (fun a b => a * 256 + Z_of_byte b) bs acc,
          seen || match bs with [] => false | _ => true end,
          EmptyString).
Proof.
  revert acc seen. induction bs as [|b rest IH]; intros acc seen.
  - simpl. rewrite orb_false_r. reflexivity.
  - destruct (byte_nibbles b) as (Hhi & Hlo & Hsum).
    destruct (hex_digit_plain _ _ Hhi) as (_ & Hu1 & _).
    destruct (hex_digit_plain _ _ Hlo) as (_ & Hu2 & _).
    cbn [hexlify scan_digits fold_left].
    rewrite Hu1, Hhi, Hu2, Hlo, IH.
    rewrite orb_true_r. simpl orb.
    replace ((acc * 16 + Z_of_byte b / 16) * 16 + Z_of_byte b mod 16)
      with (acc * 256 + Z_of_byte b) by lia.
    destruct rest; reflexivity.
Qed.

(** [int(binascii.hexlify(bs), 16)] is the big-endian reading of [bs],
    as soon as there is a byte to read. *)
Lemma parse_int16_hexlify bs :
  bs <> [] -> parse_int16 (hexlify bs) = Some (be_int bs).
Proof.
  destruct bs as [|b rest]; [congruence|]. intros _.
  destruct (byte_nibbles b) as (Hhi & Hlo & _).
  pose proof (scan_digits_hexlify (b :: rest) 0 false) as Hscan.
  cbn [hexlify] in Hscan |- *.
  rewrite (parse_int16_digits _ _ _ _ _ Hhi Hlo), Hscan.
  reflexivity.
Qed.

Lemma string_to_number_be_int bs :
  bs <> [] -> string_to_number bs = Return (be_int bs).
Proof.
  intros H. unfold string_to_number, py_int16_bytes.
  rewrite (parse_int16_hexlify bs H). reflexivity.
Qed.

(** With no byte there is no digit: [int(b'', 16)] raises. *)
Lemma string_to_number_empty :
  string_to_number [] = Raise (int_error "b''").
Proof. reflexivity. Qed.

Lemma hexlify_length bs :
  String.length (hexlify bs) = (2 * List.length bs)%nat.
Proof. induction bs as [|b rest IH]; simpl; [reflexivity|]. rewrite IH. lia. Qed.

Lemma digest_length data : List.length (Sha256.digest data) = 32%nat.
Proof.
  unfold Sha256.digest, Sha256.digest_bytes.
  rewrite !length_app. reflexivity.
Qed.

Lemma be_int_bound bs : 0 <= be_int bs < 256 ^ Z.of_nat (List.length bs).
Proof.
  unfold be_int.
  assert (H : forall acc k, 0 <= acc < 256 ^ k -> 0 <= k ->
              0 <= fold_left (fun a b => a * 256 + Z_of_byte b) bs acc
                < 256 ^ (k + Z.of_nat (List.length bs))).
  { induction bs as [|b rest IH]; intros acc k Hacc Hk.
    - simpl. rewrite Z.add_0_r. exact Hacc.
    - cbn [fold_left List.length].
      replace (k + Z.of_nat (S (List.length rest)))
        with ((k + 1) + Z.of_nat (List.length rest)) by lia.
      apply IH; [|lia].
      rewrite Z.pow_add_r, Z.pow_1_r by lia.
      assert (0 <= Z_of_byte b < 256) by (destruct b; vm_compute; split; congruence).
      nia. }
  specialize (H 0 0). simpl in H. apply H; lia.
Qed.

(** ** [bytes.fromhex] against "valid hex of even length" *)

Lemma valid_hex_pair c c' rest :
  valid_hex_even_length (String c (String c' rest))
  = is_hex_digit c && is_hex_digit c' && valid_hex_even_length rest.
Proof.
  unfold valid_hex_even_length.
  cbn [String.length list_ascii_of_string forallb Nat.even].
  destruct (Nat.even (String.length rest)), (is_hex_digit c),
    (is_hex_digit c'); reflexivity.
Qed.

Lemma valid_hex_single c : valid_hex_even_length (String c "") = false.
Proof. reflexivity. Qed.

Lemma fromhex_at_no_space text :
  forall pos,
    has_no_space text = true ->
    ((exists bs, fromhex_at pos text = Return bs)
     <-> valid_hex_even_length text = true).
Proof.
  induction text as [text IH] using string_length_ind.
  intros pos Hns.
  destruct text as [|c [|c' rest]].
  - simpl. split; [reflexivity|]. intros _. exists []. reflexivity.
  - rewrite valid_hex_single.
    unfold has_no_space in Hns. simpl in Hns.
    rewrite andb_true_r in Hns. apply negb_true_iff in Hns.
    simpl. rewrite Hns.
    split; [|discriminate].
    intros [bs H]. destruct (digit16 c); discriminate H.
  - rewrite valid_hex_pair.
    unfold has_no_space in Hns.
    cbn [list_ascii_of_string forallb] in Hns.
    apply andb_true_iff in Hns. destruct Hns as [Hc Hns].
    apply andb_true_iff in Hns. destruct Hns as [_ Hrest].
    apply negb_true_iff in Hc.
    specialize (IH rest ltac:(simpl; lia) (S (S pos)) Hrest).
    cbn [fromhex_at]. rewrite Hc. unfold is_hex_digit.
    destruct (digit16 c) as [top|];
      [|split; [intros [bs H]; discriminate H | discriminate]].
    destruct (digit16 c') as [bot|];
      [|split; [intros [bs H]; discriminate H | discriminate]].
    simpl andb. rewrite <- IH.
    destruct (fromhex_at (S (S pos)) rest) as [bs|e]; simpl.
    + split; intros _; eexists; reflexivity.
    + split; intros [bs H]; discriminate H.
Qed.

Lemma valid_hex_has_no_space text :
  valid_hex_even_length text = true -> has_no_space text = true.
Proof.
  unfold valid_hex_even_length, has_no_space.
  intros H. apply andb_true_iff in H. destruct H as [_ H].
  rewrite forallb_forall in H |- *. intros c Hc.
  specialize (H c Hc). unfold is_hex_digit in H.
  destruct (digit16 c) as [d|] eqn:E; [|discriminate].
  destruct (hex_digit_plain c d E) as (Hsp & _). rewrite Hsp. reflexivity.
Qed.

(** Every text of hexadecimal digits in even number decodes. *)
Lemma fromhex_valid_hex text :
  valid_hex_even_length text = true ->
  exists bs, bytes_fromhex text = Return bs.
Proof.
  intros H. unfold bytes_fromhex.
  apply (fromhex_at_no_space text 0 (valid_hex_has_no_space text H)).
  exact H.
Qed.

(** ** The claims about the digest and the key material *)

(** C5, as amended.  [calculate_z] returns the SHA-256 digest of the bytes
    decoded from the identifier as text: 64 lower-case hexadecimal digits
    whose base-16 value is the unsigned big-endian reading of the digest.
    It raises [ValueError] when the identifier does not decode; for an
    identifier without ASCII white space that is exactly when it is not
    valid hex of even length. *)
Theorem calculate_z_digest_text :
  forall txid,
    (forall bs,
        bytes_fromhex txid = Return bs ->
        calculate_z txid = Return (hexlify (Sha256.digest bs))
        /\ String.length (hexlify (Sha256.digest bs)) = 64%nat
        /\ py_int16 (hexlify (Sha256.digest bs))
           = Return (be_int (Sha256.digest bs)))
    /\ (forall e,
           bytes_fromhex txid = Raise e ->
           calculate_z txid = Raise e /\ exn_cls e = ValueError)
    /\ (has_no_space txid = true ->
        ((exists e, calculate_z txid = Raise e)
         <-> valid_hex_even_length txid = false)).
Proof.
  intros txid. unfold calculate_z, Sha256.hexdigest.
  split; [|split].
  - intros bs Hbs. rewrite Hbs. split; [reflexivity|]. split.
    + rewrite hexlify_length, digest_length. reflexivity.
    + unfold py_int16. rewrite parse_int16_hexlify; [reflexivity|].
      intros E. pose proof (digest_length bs) as L. rewrite E in L.
      discriminate L.
  - intros e He. rewrite He. split; [reflexivity|].
    eapply fromhex_at_raises. exact He.
  - intros Hns. split.
    + intros [e He].
      destruct (valid_hex_even_length txid) eqn:V; [|reflexivity].
      destruct (fromhex_valid_hex txid V) as [bs Hbs].
      rewrite Hbs in He. discriminate He.
    + intros V.
      destruct (bytes_fromhex txid) as [bs|e] eqn:E.
      * assert (V' : valid_hex_even_length txid = true).
        { apply (fromhex_at_no_space txid 0 Hns). exists bs. exact E. }
        congruence.
      * exists e. reflexivity.
Qed.

(** Key material comes from a decoded identifier of at least one byte,
    and from nothing else. *)
Lemma pubkey_of_txid_inv txid k :
  pubkey_of_txid txid = Return k ->
  exists bs, bytes_fromhex txid = Return bs /\ bs <> [] /\ k = be_int bs.
Proof.
  unfold pubkey_of_txid.
  destruct (bytes_fromhex txid) as [bs|e]; [|discriminate].
  cbn [rbind]. intros H. exists bs. split; [reflexivity|].
  destruct bs as [|b rest]; [discriminate H|].
  split; [discriminate|].
  rewrite string_to_number_be_int in H by discriminate.
  congruence.
Qed.

Lemma pubkey_of_txid_decoded txid bs :
  bytes_fromhex txid = Return bs -> bs <> [] ->
  pubkey_of_txid txid = Return (be_int bs).
Proof.
  intros H Hne. unfold pubkey_of_txid. rewrite H. cbn [rbind].
  apply string_to_number_be_int. exact Hne.
Qed.

(** C4, as amended.  The key material that line 23 computes is the
    unsigned big-endian integer of the bytes decoded from the identifier: a
    function of the identifier alone (not of r, s, z or n), an integer and
    not a curve point, and not a hash of anything.  Whatever the package
    does, a call of the check, if one is made, is made with that
    integer. *)
Theorem pubkey_is_identifier_integer :
  forall txid bs,
    bytes_fromhex txid = Return bs -> bs <> [] ->
    pubkey_of_txid txid = Return (be_int bs)
    /\ forall curve_order verify r s z n call,
         In call
            (verify_calls
               (snd (verify_signature curve_order verify txid r s z n [])))
         -> call = (r, s, z, be_int bs).
Proof.
  intros txid bs Hbs Hne.
  pose proof (pubkey_of_txid_decoded txid bs Hbs Hne) as K.
  split; [exact K|].
  intros curve_order verify r s z n call.
  rewrite verify_signature_handles.
  pose proof (body_calls curve_order verify txid r s z n) as C.
  destruct (verify_signature_body curve_order verify txid r s z n [])
    as [outcome t'].
  cbn [snd] in *. rewrite verify_calls_app, verify_calls_printed, app_nil_r, C.
  destruct curve_order as [order|e]; [|intros []].
  destruct (in_range order r s); [|intros []].
  rewrite K. intros [H|[]]. symmetry. exact H.
Qed.

(** ** Low-S *)

(** C9.  For 0 < s < n with s different from n/2, exactly one of s and
    n - s is low-S. *)
Theorem exactly_one_of_s_and_complement_is_low_s :
  forall s n,
    0 < s < n -> s <> n / 2 ->
    xorb (isLowS s n) (isLowS (n - s) n) = true.
Proof.
  intros s n Hs Hne. unfold isLowS.
  pose proof (Z.div_mod n 2 ltac:(lia)) as Hdiv.
  pose proof (Z.mod_pos_bound n 2 ltac:(lia)) as Hmod.
  destruct (Z.leb_spec s (n / 2)), (Z.leb_spec (n - s) (n / 2));
    simpl; try reflexivity; lia.
Qed.

(** At the boundary of an even n both s = n/2 and n - s are low-S: the
    exception is needed. *)
Lemma low_s_boundary n :
  Z.even n = true ->
  isLowS (n / 2) n = true /\ isLowS (n - n / 2) n = true.
Proof.
  intros He. unfold isLowS.
  pose proof (Zeven_div2 n ltac:(apply Zeven_bool_iff; exact He)) as H.
  rewrite Zdiv2_div in H.
  split; apply Z.leb_le; lia.
Qed.

(** ** The loop *)

Section LoopProperties.

Variable curve_order : result Z.
Variable verify : Z * Z -> Z -> Z -> result bool.

(** A record whose numeric fields parse gets its block, and the loop body
    ends normally, whatever happened inside [verify_signature]. *)
Lemma report_parsed signature t :
  numeric_fields_ok signature = true ->
  exists events,
    report curve_order verify signature t = (Return tt, t ++ events)
    /\ stdout events = expected_block curve_order verify signature
    /\ verify_calls events = expected_calls curve_order signature.
Proof.
  unfold numeric_fields_ok, expected_block, expected_calls, int_or_zero.
  destruct (py_int16 (Sig.r signature)) as [r|] eqn:Er; [|discriminate].
  destruct (py_int16 (Sig.s signature)) as [s|] eqn:Es; [|discriminate].
  destruct (py_int16 (Sig.z signature)) as [z|] eqn:Ez; [|discriminate].
  destruct (py_int16 (Sig.n signature)) as [n|] eqn:En; [|discriminate].
  intros _.
  unfold report, bind, lift, print. rewrite Er, Es, Ez, En.
  rewrite verify_signature_frame, verify_signature_handles.
  pose proof (body_prints_nothing curve_order verify
                (Sig.TXID signature) r s z n) as Hq.
  pose proof (body_calls curve_order verify (Sig.TXID signature) r s z n)
    as Hc.
  unfold block_lines.
  destruct (verify_signature_body curve_order verify
              (Sig.TXID signature) r s z n [])
    as [outcome t'].
  cbn [fst snd] in *.
  destruct outcome as [[|]|e]; cbv beta iota;
    rewrite <- !app_assoc; eexists; (split; [reflexivity|]);
    rewrite !stdout_app, !verify_calls_app, Hq, Hc,
      stdout_printed, verify_calls_printed;
    split; try reflexivity; cbn [verify_calls flat_map app];
    rewrite app_nil_r; reflexivity.
Qed.

Lemma for_each_parsed records :
  forall t,
    forallb numeric_fields_ok records = true ->
    exists events,
      for_each curve_order verify records t = (Return tt, t ++ events)
      /\ stdout events = flat_map (expected_block curve_order verify) records
      /\ verify_calls events = flat_map (expected_calls curve_order) records.
Proof.
  induction records as [|signature rest IH]; intros t Hok.
  - exists []. simpl. rewrite app_nil_r. repeat split.
  - cbn [forallb] in Hok. apply andb_true_iff in Hok.
    destruct Hok as [Hsig Hrest].
    destruct (report_parsed signature t Hsig) as (ev1 & R1 & O1 & C1).
    destruct (IH (t ++ ev1) Hrest) as (ev2 & R2 & O2 & C2).
    exists (ev1 ++ ev2).
    cbn [for_each flat_map]. unfold bind. rewrite R1, R2.
    rewrite app_assoc, stdout_app, verify_calls_app, O1, O2, C1, C2.
    repeat split.
Qed.

(** An unreadable numeric field ends the loop at that record. *)
Lemma report_unparsed signature t :
  numeric_fields_ok signature = false ->
  exists e,
    report curve_order verify signature t = (Raise e, t)
    /\ exn_cls e = ValueError.
Proof.
  unfold numeric_fields_ok, report, bind, lift.
  destruct (py_int16 (Sig.r signature)) as [r|e] eqn:Er;
    [|exists e; split; [reflexivity|exact (py_int16_raises _ _ Er)]].
  destruct (py_int16 (Sig.s signature)) as [s|e] eqn:Es;
    [|exists e; split; [reflexivity|exact (py_int16_raises _ _ Es)]].
  destruct (py_int16 (Sig.z signature)) as [z|e] eqn:Ez;
    [|exists e; split; [reflexivity|exact (py_int16_raises _ _ Ez)]].
  destruct (py_int16 (Sig.n signature)) as [n|e] eqn:En;
    [|exists e; split; [reflexivity|exact (py_int16_raises _ _ En)]].
  discriminate.
Qed.

End LoopProperties.


(** C6, as amended.  For every batch of records whose r, s, z and n fields
    are base-16 literals, no failure stops the loop: it ends normally and
    every record, in order, gets its block of output.  A failure inside
    [verify_signature] (the curve object without [order], an identifier
    that does not decode, r or s out of range, [BadSignatureError] or any
    other exception of the check) shows in that record's block as the
    verdict "invalid", after a diagnostic line when the exception is not
    [BadSignatureError]. *)
Theorem failures_in_verification_do_not_stop_the_loop :
  forall curve_order verify records t,
    forallb numeric_fields_ok records = true ->
    fst (for_each curve_order verify records t) = Return tt
    /\ stdout (snd (for_each curve_order verify records t))
       = stdout t ++ flat_map (expected_block curve_order verify) records.
Proof.
  intros curve_order verify records t Hok.
  destruct (for_each_parsed curve_order verify records t Hok)
    as (events & R & O & _).
  rewrite R. cbn [fst snd]. rewrite stdout_app, O. split; reflexivity.
Qed.

(** ** The script with the package as it is *)


(** X1.  The script as shipped stops at the import of line 3 and writes
    nothing.  With a name [verify] supplied, whatever it does, the loop
    runs to its end on the four records without ever calling it: each
    record gets nine lines, its six lines of data, the diagnostic of the
    missing [order], the verdict "invalid" and the rule. *)
Theorem script_with_the_package_as_it_is :
  main = (Raise cannot_import_verify, [])
  /\ forall verify,
       fst (for_each CurveFp_order verify signatures []) = Return tt
       /\ verify_calls (snd (for_each CurveFp_order verify signatures []))
          = []
       /\ stdout (snd (for_each CurveFp_order verify signatures []))
          = flat_map
              (fun rs : string * string =>
                 [ "🔹 Podpis dla TXID " ++ sample_txid ++ ":";
                   "  r = " ++ fst rs;
                   "  s = " ++ snd rs;
                   "  z (computed) = " ++ sample_z;
                   "  Low-S? = True";
                   "  n = " ++ sample_n;
                   error_line no_order_attribute;
                   invalid_line;
                   rule_line ]%string)
              (map (fun signature => (Sig.r signature, Sig.s signature))
                   signatures).
Proof.
  split; [reflexivity|].
  intros verify. vm_compute. repeat split.
Qed.

(** The argument [n] plays no part: the guard compares with what the
    curve object answers. *)
Remark order_argument_is_ignored :
  forall curve_order verify txid r s z n n' t,
    verify_signature curve_order verify txid r s z n t
    = verify_signature curve_order verify txid r s z n' t.
Proof. reflexivity. Qed.

(** * Further properties of the script *)

(** ** Key material *)

(** X9.  Key material is never negative and is bounded by the length of
    the identifier: k bytes give a number below 256^k. *)
Theorem key_material_is_bounded_by_identifier_length :
  forall txid k,
    pubkey_of_txid txid = Return k ->
    exists bs,
      bytes_fromhex txid = Return bs /\ bs <> [] /\ k = be_int bs
      /\ 0 <= k < 256 ^ Z.of_nat (List.length bs).
Proof.
  intros txid k K.
  destruct (pubkey_of_txid_inv txid k K) as (bs & Hbs & Hne & ->).
  exists bs. repeat split; try assumption; apply be_int_bound.
Qed.

(** ** The loop in front of an unreadable record *)

(** X4.  The loop stops at the first record with a numeric field, of ASCII
    text, that is not a base-16 literal: the run ends with the
    [ValueError] of [int], the records before it have their full blocks,
    and nothing is written for that record or for any record after it. *)
Theorem loop_stops_at_first_unreadable_record :
  forall curve_order verify good bad rest t,
    forallb numeric_fields_ok good = true ->
    ascii_fields bad = true ->
    numeric_fields_ok bad = false ->
    exists e,
      fst (for_each curve_order verify (good ++ bad :: rest) t) = Raise e
      /\ exn_cls e = ValueError
      /\ stdout (snd (for_each curve_order verify (good ++ bad :: rest) t))
         = stdout t ++ flat_map (expected_block curve_order verify) good.
Proof.
  intros curve_order verify good bad rest.
  induction good as [|g good IH]; intros t Hgood Hascii Hbad.
  - destruct (report_unparsed curve_order verify bad t Hbad) as (e & R & He).
    exists e. cbn [app for_each flat_map]. unfold bind. rewrite R.
    cbn [fst snd]. rewrite app_nil_r. repeat split; assumption.
  - cbn [forallb] in Hgood. apply andb_true_iff in Hgood.
    destruct Hgood as [Hg Hgood].
    destruct (report_parsed curve_order verify g t Hg) as (ev & R & O & _).
    destruct (IH (t ++ ev) Hgood Hascii Hbad) as (e & F & He & Out).
    exists e. cbn [app for_each flat_map]. unfold bind. rewrite R.
    split; [exact F|]. split; [exact He|].
    rewrite Out, stdout_app, O, app_assoc. reflexivity.
Qed.

(** ** Identifiers that mean the same *)

Lemma upper_char_plain c :
  is_space (upper_char c) = is_space c
  /\ digit16 (upper_char c) = digit16 c.
Proof. destruct c as [[] [] [] [] [] [] [] []]; vm_compute; split; reflexivity. Qed.

Lemma fromhex_at_upper text :
  forall pos, fromhex_at pos (upper text) = fromhex_at pos text.
Proof.
  induction text as [text IH] using string_length_ind.
  intros pos. destruct text as [|c rest]; [reflexivity|].
  destruct (upper_char_plain c) as [Hs Hd].
  cbn [upper fromhex_at]. rewrite Hs, Hd.
  destruct (is_space c); [apply IH; simpl; lia|].
  destruct (digit16 c); [|reflexivity].
  destruct rest as [|c' rest']; [reflexivity|].
  destruct (upper_char_plain c') as [_ Hd'].
  cbn [upper]. rewrite Hd'.
  destruct (digit16 c'); [|reflexivity].
  rewrite IH by (simpl; lia). reflexivity.
Qed.

(** X5.  The case of the letters of an ASCII identifier does not matter:
    the upper-cased identifier gives the same digest text, and
    [verify_signature] does with it exactly what it does with the
    original. *)
Theorem identifier_case_is_irrelevant :
  forall curve_order verify txid r s z n t,
    is_ascii txid = true ->
    calculate_z (upper txid) = calculate_z txid
    /\ verify_signature curve_order verify (upper txid) r s z n t
       = verify_signature curve_order verify txid r s z n t.
Proof.
  intros curve_order verify txid r s z n t _.
  assert (D : bytes_fromhex (upper txid) = bytes_fromhex txid)
    by apply fromhex_at_upper.
  split.
  - unfold calculate_z. rewrite D. reflexivity.
  - unfold verify_signature, verify_signature_body, pubkey_of_txid.
    rewrite D. reflexivity.
Qed.

(** A decoded value does not depend on where the count of positions
    starts; only error messages do. *)
Lemma fromhex_at_value text :
  forall pos pos' bs,
    fromhex_at pos text = Return bs -> fromhex_at pos' text = Return bs.
Proof.
  induction text as [text IH] using string_length_ind.
  intros pos pos' bs. destruct text as [|c rest]; [trivial|].
  cbn [fromhex_at].
  destruct (is_space c); [apply IH; simpl; lia|].
  destruct (digit16 c); [|discriminate].
  destruct rest as [|c' rest']; [discriminate|].
  destruct (digit16 c'); [|discriminate].
  destruct (fromhex_at (S (S pos)) rest') as [tail|e] eqn:E; [|discriminate].
  rewrite (IH rest' ltac:(simpl; lia) _ (S (S pos')) tail E).
  trivial.
Qed.

Lemma be_int_leading_zero bs : be_int (x00 :: bs) = be_int bs.
Proof. reflexivity. Qed.

(** X6.  Key material forgets leading zero bytes: an identifier and the
    same identifier with "00" in front are different texts, yet
    [verify_signature] does exactly the same with both. *)
Theorem leading_zero_byte_gives_same_key_material :
  forall curve_order verify txid r s z n t bs,
    bytes_fromhex txid = Return bs -> bs <> [] ->
    pubkey_of_txid ("00" ++ txid) = pubkey_of_txid txid
    /\ verify_signature curve_order verify ("00" ++ txid) r s z n t
       = verify_signature curve_order verify txid r s z n t.
Proof.
  intros curve_order verify txid r s z n t bs Hbs Hne.
  assert (D : bytes_fromhex ("00" ++ txid) = Return (x00 :: bs)).
  { unfold bytes_fromhex in *. cbn [String.append fromhex_at].
    change (is_space "0") with false. change (digit16 "0") with (Some 0).
    cbv beta iota.
    rewrite (fromhex_at_value txid 0 2 bs Hbs). reflexivity. }
  assert (K : pubkey_of_txid ("00" ++ txid) = pubkey_of_txid txid).
  { rewrite (pubkey_of_txid_decoded _ _ D ltac:(discriminate)).
    rewrite (pubkey_of_txid_decoded _ _ Hbs Hne).
    rewrite be_int_leading_zero. reflexivity. }
  split; [exact K|].
  unfold verify_signature, verify_signature_body. rewrite K. reflexivity.
Qed.

Lemma decoded_at_any_position text pos pos' :
  decoded_at pos text = decoded_at pos' text.
Proof.
  unfold decoded_at.
  destruct (fromhex_at pos text) as [bs|e] eqn:E.
  - rewrite (fromhex_at_value text pos pos' bs E). reflexivity.
  - destruct (fromhex_at pos' text) as [bs'|e'] eqn:E'; [|reflexivity].
    rewrite (fromhex_at_value text pos' pos bs' E') in E. discriminate E.
Qed.

(** Decoding goes byte by byte: after a text that is a whole number of
    bytes, what follows is decoded on its own. *)
Lemma decoded_at_app a :
  forall b pos pos' ba,
    fromhex_at pos a = Return ba ->
    decoded_at pos (a ++ b) = option_map (app ba) (decoded_at pos' b).
Proof.
  induction a as [a IH] using string_length_ind.
  intros b pos pos' ba. destruct a as [|c rest].
  - cbn [fromhex_at String.append]. intros [= <-].
    rewrite (decoded_at_any_position b pos pos').
    destruct (decoded_at pos' b); reflexivity.
  - unfold decoded_at. cbn [String.append fromhex_at].
    destruct (is_space c).
    { intros H. apply (IH rest ltac:(simpl; lia) b (S pos) pos' ba H). }
    destruct (digit16 c) as [top|]; [|discriminate].
    destruct rest as [|c' rest']; [discriminate|].
    cbn [String.append].
    destruct (digit16 c') as [bot|]; [|discriminate].
    destruct (fromhex_at (S (S pos)) rest') as [tail|e] eqn:E; [|discriminate].
    cbn [rbind]. intros [= <-].
    pose proof (IH rest' ltac:(simpl; lia) b (S (S pos)) pos' tail E) as H.
    unfold decoded_at in H.
    destruct (fromhex_at (S (S pos)) (rest' ++ b)) as [bs|e'];
      destruct (fromhex_at pos' b) as [bs'|e'']; cbn in H |- *;
      congruence.
Qed.

(** X10.  White space between the bytes of an identifier is ignored: put
    after a whole number of bytes, a white-space character changes neither
    the decoded bytes, nor the digest text, nor what [verify_signature]
    does. *)
Theorem white_space_between_bytes_is_ignored :
  forall curve_order verify a c b ba bs r s z n t,
    is_space c = true ->
    bytes_fromhex a = Return ba ->
    bytes_fromhex (a ++ b) = Return bs ->
    bytes_fromhex (a ++ String c b) = Return bs
    /\ calculate_z (a ++ String c b) = calculate_z (a ++ b)
    /\ verify_signature curve_order verify (a ++ String c b) r s z n t
       = verify_signature curve_order verify (a ++ b) r s z n t.
Proof.
  intros curve_order verify a c b ba bs r s z n t Hc Ha Hab.
  assert (D : bytes_fromhex (a ++ String c b) = Return bs).
  { pose proof (decoded_at_app a (String c b) 0 0 ba Ha) as H1.
    pose proof (decoded_at_app a b 0 1 ba Ha) as H2.
    unfold decoded_at in H1, H2. unfold bytes_fromhex in *.
    rewrite Hab in H2. cbn [fromhex_at] in H1. rewrite Hc in H1.
    rewrite <- H2 in H1.
    destruct (fromhex_at 0 (a ++ String c b)); congruence. }
  split; [exact D|]. split.
  - unfold calculate_z. rewrite D, Hab. reflexivity.
  - unfold verify_signature, verify_signature_body, pubkey_of_txid.
    rewrite D, Hab. reflexivity.
Qed.

(** ** Round trips *)

Lemma byte_of_Z_of_byte b : byte_of_Z (Z_of_byte b) = b.
Proof. destruct b; reflexivity. Qed.

(** [bytes.fromhex] undoes [hexlify]. *)
Lemma fromhex_at_hexlify bs :
  forall pos, fromhex_at pos (hexlify bs) = Return bs.
Proof.
  induction bs as [|b rest IH]; intros pos; [reflexivity|].
  destruct (byte_nibbles b) as (Hhi & Hlo & Hsum).
  destruct (hex_digit_plain _ _ Hhi) as (Hsp & _).
  cbn [hexlify fromhex_at]. rewrite Hsp, Hhi, Hlo, IH. cbn [rbind].
  rewrite Hsum, byte_of_Z_of_byte. reflexivity.
Qed.

(** X8.  The text [calculate_z] returns is itself an identifier that
    decodes: [bytes.fromhex] gives back the 32 bytes of the digest, and
    read as key material it is the digest as a number. *)
Theorem calculate_z_text_decodes_to_the_digest :
  forall txid h,
    calculate_z txid = Return h ->
    exists bs,
      bytes_fromhex txid = Return bs
      /\ bytes_fromhex h = Return (Sha256.digest bs)
      /\ List.length (Sha256.digest bs) = 32%nat
      /\ pubkey_of_txid h = Return (be_int (Sha256.digest bs)).
Proof.
  intros txid h. unfold calculate_z, Sha256.hexdigest.
  destruct (bytes_fromhex txid) as [bs|e]; [|discriminate].
  cbn [rbind]. intros [= <-]. exists bs.
  assert (D : bytes_fromhex (hexlify (Sha256.digest bs))
              = Return (Sha256.digest bs)) by apply fromhex_at_hexlify.
  split; [reflexivity|]. split; [exact D|].
  split; [apply digest_length|].
  apply (pubkey_of_txid_decoded _ _ D).
  intros E. pose proof (digest_length bs) as L. rewrite E in L.
  discriminate L.
Qed.

(** [int(hex(v), 16)]: the digits that [hex] writes, read by the digit
    loop of [int]. *)
Lemma scan_digits_string_of_uint d :
  forall acc seen,
    scan_digits acc false seen (HexadecimalString.NilEmpty.string_of_uint d)
    = Some (uint_value acc d,
            seen || match d with Hexadecimal.Nil => false | _ => true end,
            EmptyString).
Proof.
  induction d; intros acc seen;
    cbn [HexadecimalString.NilEmpty.string_of_uint uint_value];
    try (rewrite orb_false_r; reflexivity);
    (cbn [scan_digits];
     match goal with
     | |- context [Ascii.eqb ?c "_"] =>
         change (Ascii.eqb c "_") with false
     end;
     match goal with
     | |- context [digit16 ?c] =>
         let v := eval vm_compute in (digit16 c) in
         change (digit16 c) with v
     end;
     cbv beta iota; rewrite IHd, orb_true_r; reflexivity).
Qed.

Lemma of_hex_uint_acc_value d :
  forall acc, Zpos (Pos.of_hex_uint_acc d acc) = uint_value (Zpos acc) d.
Proof.
  induction d; intros acc; cbn [Pos.of_hex_uint_acc uint_value];
    try reflexivity; rewrite IHd; f_equal; lia.
Qed.

Lemma of_hex_uint_value d : Z.of_N (Pos.of_hex_uint d) = uint_value 0 d.
Proof.
  induction d; cbn [Pos.of_hex_uint uint_value]; try reflexivity;
    try exact IHd; cbn [Z.of_N]; rewrite of_hex_uint_acc_value; reflexivity.
Qed.

Lemma to_hex_uint_value q : uint_value 0 (Pos.to_hex_uint q) = Zpos q.
Proof.
  rewrite <- of_hex_uint_value, HexadecimalPos.Unsigned.of_to. reflexivity.
Qed.

(** After the prefix [0x], text that starts with a digit is read by the
    digit loop from that digit on. *)
Lemma parse_int16_after_prefix c rest d :
  digit16 c = Some d ->
  parse_int16 (String "0" (String "x" (String c rest)))
  = int16_tail (scan_digits 0 false false (String c rest))
  /\ parse_int16 (String "-" (String "0" (String "x" (String c rest))))
     = option_map Z.opp (int16_tail (scan_digits 0 false false (String c rest))).
Proof.
  intros H.
  destruct c as [[] [] [] [] [] [] [] []];
    try (vm_compute in H; discriminate H);
    unfold parse_int16, int16_tail; cbn [lstrip];
    change (is_space "0") with false; change (is_space "-") with false;
    cbv beta iota zeta;
    change (Ascii.eqb "x" "x") with true; cbv beta iota delta [orb];
    (split; [reflexivity|]);
    destruct (scan_digits _ _ _ _) as [[[v []] tail]|]; try reflexivity;
    destruct (lstrip tail); reflexivity.
Qed.

Lemma string_of_uint_head d :
  d <> Hexadecimal.Nil ->
  exists c rest v,
    HexadecimalString.NilEmpty.string_of_uint d = String c rest
    /\ digit16 c = Some v.
Proof.
  destruct d; intros Hne; [congruence| ..];
    cbn [HexadecimalString.NilEmpty.string_of_uint];
    eexists; eexists; eexists; (split; [reflexivity|]);
    vm_compute; reflexivity.
Qed.

Lemma py_int16_py_hex v : py_int16 (py_hex v) = Return v.
Proof.
  revert v.
  assert (digits : forall q,
            exists c rest d,
              HexadecimalString.NilEmpty.string_of_uint (Pos.to_hex_uint q)
              = String c rest
              /\ digit16 c = Some d
              /\ int16_tail (scan_digits 0 false false (String c rest))
                 = Some (Zpos q)).
  { intros q.
    pose proof (HexadecimalPos.Unsigned.to_uint_nonnil q) as Hne.
    pose proof (scan_digits_string_of_uint (Pos.to_hex_uint q) 0 false)
      as Hscan.
    rewrite (to_hex_uint_value q) in Hscan.
    destruct (string_of_uint_head _ Hne) as (c & rest & d & Hs & Hd).
    exists c, rest, d. split; [exact Hs|]. split; [exact Hd|].
    rewrite <- Hs, Hscan.
    destruct (Pos.to_hex_uint q); [congruence| ..]; reflexivity. }
  intros v. unfold py_int16, py_hex.
  destruct v as [|q|q]; [reflexivity| |];
    destruct (digits q) as (c & rest & d & Hs & Hd & Htail);
    destruct (parse_int16_after_prefix c rest d Hd) as [Hpos Hneg];
    cbn [String.append]; rewrite Hs.
  - rewrite Hpos, Htail. reflexivity.
  - rewrite Hneg, Htail. reflexivity.
Qed.

(** X7.  The numbers the loop prints can be read back: [int(hex(v), 16)]
    is v, for every integer v, negative ones and zero included. *)
Theorem int_reads_back_what_hex_writes :
  forall v, py_int16 (py_hex v) = Return v.
Proof. intros v. apply py_int16_py_hex. Qed.

(** X11.  A record whose numeric fields are written the way [hex] writes
    numbers is read back exactly by the loop: its body ends normally and
    the six lines of data it prints show the identifier, the four fields
    as they are stored and the flag.  With the package as it is the block
    is completed by the diagnostic of the missing [order], the verdict
    "invalid" and the rule, and no call is made. *)
Theorem fields_written_by_hex_are_read_back :
  forall verify txid r s z flag n t,
    let signature :=
      Sig.mk txid (py_hex r) (py_hex s) (py_hex z) flag (py_hex n) in
    (forall curve_order,
        exists events,
          report curve_order verify signature t = (Return tt, t ++ events)
          /\ firstn 6 (stdout events)
             = [ "🔹 Podpis dla TXID " ++ txid ++ ":";
                 "  r = " ++ py_hex r;
                 "  s = " ++ py_hex s;
                 "  z (computed) = " ++ py_hex z;
                 "  Low-S? = " ++ str_of_bool flag;
                 "  n = " ++ py_hex n ]%string)
    /\ report CurveFp_order verify signature t
       = (Return tt,
          t ++ map Printed
                 [ "🔹 Podpis dla TXID " ++ txid ++ ":";
                   "  r = " ++ py_hex r;
                   "  s = " ++ py_hex s;
                   "  z (computed) = " ++ py_hex z;
                   "  Low-S? = " ++ str_of_bool flag;
                   "  n = " ++ py_hex n;
                   error_line no_order_attribute;
                   invalid_line;
                   rule_line ]%string).
Proof.
  intros verify txid r s z flag n t signature.
  assert (Hok : numeric_fields_ok signature = true).
  { unfold numeric_fields_ok. subst signature. cbn [Sig.r Sig.s Sig.z Sig.n].
    rewrite !py_int16_py_hex. reflexivity. }
  split.
  - intros curve_order.
    destruct (report_parsed curve_order verify signature t Hok)
      as (events & R & O & _).
    exists events. split; [exact R|]. rewrite O.
    unfold expected_block, block_lines, int_or_zero. subst signature.
    cbn [Sig.r Sig.s Sig.z Sig.n Sig.Low_S Sig.TXID].
    rewrite !py_int16_py_hex. reflexivity.
  - unfold report, bind, lift, print. subst signature.
    cbn [Sig.r Sig.s Sig.z Sig.n Sig.Low_S Sig.TXID].
    rewrite !py_int16_py_hex. rewrite verify_signature_as_packaged.
    cbn [valid_line]. rewrite <- !app_assoc. reflexivity.
Qed.

(** * The claims on concrete input *)

Lemma sample_txid_decodes : bytes_fromhex sample_txid = Return sample_txid_bytes.
Proof. vm_compute. reflexivity. Qed.

Lemma sample_txid_bytes_nonempty : sample_txid_bytes <> [].
Proof. discriminate. Qed.

(** C2 on concrete input, for a check that would raise if it were called.
    With the package as it is, r = 0 is rejected at line 16, after the
    diagnostic of line 29; with a curve object that answers the order of
    secp256k1, s = n is rejected by the guard, in silence. *)
Lemma out_of_range_witness :
  (fst (verify_signature CurveFp_order (raising division_by_zero)
          sample_txid 0 sample_s1 sample_z1 SECP256k1.order [])
   = Return false
   /\ verify_calls
        (snd (verify_signature CurveFp_order (raising division_by_zero)
                sample_txid 0 sample_s1 sample_z1 SECP256k1.order []))
      = verify_calls []
   /\ stdout
        (snd (verify_signature CurveFp_order (raising division_by_zero)
                sample_txid 0 sample_s1 sample_z1 SECP256k1.order []))
      = stdout [] ++ diagnostic (@Raise bool no_order_attribute))
  /\ (fst (verify_signature
             (Return SECP256k1.order) (raising division_by_zero)
             sample_txid sample_r1 SECP256k1.order sample_z1
             SECP256k1.order [])
      = Return false
      /\ verify_calls
           (snd (verify_signature
                   (Return SECP256k1.order) (raising division_by_zero)
                   sample_txid sample_r1 SECP256k1.order sample_z1
                   SECP256k1.order []))
         = verify_calls []
      /\ stdout
           (snd (verify_signature
                   (Return SECP256k1.order) (raising division_by_zero)
                   sample_txid sample_r1 SECP256k1.order sample_z1
                   SECP256k1.order []))
         = stdout [] ++ []).
Proof.
  split.
  - apply (out_of_range_rejected_before_curve_arithmetic
             CurveFp_order (raising division_by_zero)
             sample_txid 0 sample_s1 sample_z1 SECP256k1.order []).
    exact I.
  - apply (out_of_range_rejected_before_curve_arithmetic
             (Return SECP256k1.order) (raising division_by_zero)
             sample_txid sample_r1 SECP256k1.order sample_z1
             SECP256k1.order []).
    right. right. right. unfold SECP256k1.order. lia.
Defined.

(** C4 as stated fails: for the script's own identifier the key material
    is the identifier read as a number; its SHA-256 digest is another
    number. *)
Lemma pubkey_is_not_a_digest :
  bytes_fromhex sample_txid = Return sample_txid_bytes
  /\ pubkey_of_txid sample_txid
     = Return 0x44b4cca7a2306c6af2a931a50f9138bf87bf13ba41cd5ce5b6239e930b34793e
  /\ be_int (Sha256.digest sample_txid_bytes)
     = 0x3ee6b3e10f178bb7a3df7ae32fd13854e6da1cd94e10129bd6186b6d7e41ab0d
  /\ (pubkey_of_txid sample_txid
      = Return (be_int (Sha256.digest sample_txid_bytes)) -> False).
Proof.
  repeat split; try (vm_compute; reflexivity).
  vm_compute. discriminate.
Qed.

(** C4, as amended, on the script's identifier. *)
Lemma pubkey_witness :
  pubkey_of_txid sample_txid = Return (be_int sample_txid_bytes)
  /\ forall curve_order verify r s z n call,
       In call
          (verify_calls
             (snd (verify_signature curve_order verify
                     sample_txid r s z n [])))
       -> call = (r, s, z, be_int sample_txid_bytes).
Proof.
  apply (pubkey_is_identifier_integer sample_txid sample_txid_bytes).
  - vm_compute. reflexivity.
  - discriminate.
Defined.

(** C5 as stated fails: an identifier of odd length with a space in it
    is digested all the same, and the result is text. *)
Lemma calculate_z_accepts_spaced_identifier :
  valid_hex_even_length "44 b4" = false
  /\ bytes_fromhex "44 b4" = Return [x44; xb4]
  /\ calculate_z "44 b4"
     = Return "5d5700cb131754f454072e712fe1db4563f296c511295d3954a744f26cfbc9f9".
Proof. repeat split; vm_compute; reflexivity. Qed.

(** C6 as stated fails: a record with an unreadable r ends the run
    before anything is written, and the records after it are never looked
    at. *)
Lemma unreadable_field_stops_the_loop :
  for_each CurveFp_order verdict_false (bad_r_record :: signatures) []
  = (Raise (int_error "'0xzz'"), []).
Proof. vm_compute. reflexivity. Qed.

(** C6, as amended, on a batch that starts with a record whose identifier
    does not decode, with the package as it is: five blocks of nine
    lines. *)
Lemma isolation_witness :
  fst (for_each CurveFp_order verdict_false
         (bad_txid_record :: signatures) []) = Return tt
  /\ stdout (snd (for_each CurveFp_order verdict_false
                    (bad_txid_record :: signatures) []))
     = stdout []
       ++ flat_map (expected_block CurveFp_order verdict_false)
            (bad_txid_record :: signatures).
Proof.
  apply failures_in_verification_do_not_stop_the_loop.
  vm_compute. reflexivity.
Defined.

Example isolation_witness_lines :
  List.length
    (stdout (snd (for_each CurveFp_order verdict_false
                    (bad_txid_record :: signatures) []))) = 45%nat
  /\ expected_block CurveFp_order verdict_false bad_txid_record
     = [ "🔹 Podpis dla TXID zz:";
         "  r = 0xfbc2b9a148f7c136fd5ab60d9a1317624d90630ccdf1b65562977f370d999841";
         "  s = 0x3f598a19e8e4eefec27af6fb8765132b205f45445d4b3755235d232d6f2ee41c";
         "  z (computed) = 0xbeb21d89f2ebdc645094135d999aa79d386711a6a5f0289eba893c5515a4856f";
         "  Low-S? = True";
         "  n = 0xfffffffffffffffffffffffffffffffebaaedce6af48a03bbfd25e8cd0364141";
         "Błąd weryfikacji podpisu: 'CurveFp' object has no attribute 'order'";
         "  ❌ Podpis jest niepoprawny!";
         "------------------------------------------------" ].
Proof. split; vm_compute; reflexivity. Qed.

(** C8 as stated fails: a call of [verify_signature] on the numbers of the
    script's first record prints. *)
Lemma verify_signature_prints :
  fst (verify_signature CurveFp_order verdict_false
         sample_txid sample_r1 sample_s1 sample_z1 SECP256k1.order [])
  = Return false
  /\ stdout (snd (verify_signature CurveFp_order verdict_false
                    sample_txid sample_r1 sample_s1 sample_z1
                    SECP256k1.order []))
     = ["Błąd weryfikacji podpisu: 'CurveFp' object has no attribute 'order'"].
Proof. split; vm_compute; reflexivity. Qed.

(** C9 on the s of the script's first record. *)
Lemma low_s_witness :
  xorb (isLowS sample_s1 SECP256k1.order)
       (isLowS (SECP256k1.order - sample_s1) SECP256k1.order) = true.
Proof.
  apply exactly_one_of_s_and_complement_is_low_s.
  - split; reflexivity.
  - vm_compute. discriminate.
Defined.

(** * The further properties on concrete input *)

(** X4 on the script's records followed by one with an unreadable r and
    one more record. *)
Lemma loop_stops_witness :
  exists e,
    fst (for_each CurveFp_order verdict_false
           (signatures ++ bad_r_record :: [bad_txid_record]) []) = Raise e
    /\ exn_cls e = ValueError
    /\ stdout (snd (for_each CurveFp_order verdict_false
                      (signatures ++ bad_r_record :: [bad_txid_record]) []))
       = stdout []
         ++ flat_map (expected_block CurveFp_order verdict_false) signatures.
Proof.
  apply loop_stops_at_first_unreadable_record; vm_compute; reflexivity.
Defined.

(** X5 on the script's identifier. *)
Lemma identifier_case_witness :
  calculate_z (upper sample_txid) = calculate_z sample_txid
  /\ verify_signature CurveFp_order verdict_false
       (upper sample_txid) sample_r1 sample_s1 sample_z1 SECP256k1.order []
     = verify_signature CurveFp_order verdict_false
         sample_txid sample_r1 sample_s1 sample_z1 SECP256k1.order [].
Proof.
  apply identifier_case_is_irrelevant. vm_compute. reflexivity.
Defined.

(** X6 on the script's identifier. *)
Lemma leading_zero_witness :
  pubkey_of_txid ("00" ++ sample_txid) = pubkey_of_txid sample_txid
  /\ verify_signature CurveFp_order verdict_false
       ("00" ++ sample_txid) sample_r1 sample_s1 sample_z1 SECP256k1.order []
     = verify_signature CurveFp_order verdict_false
         sample_txid sample_r1 sample_s1 sample_z1 SECP256k1.order [].
Proof.
  apply (leading_zero_byte_gives_same_key_material CurveFp_order verdict_false
           sample_txid sample_r1 sample_s1 sample_z1 SECP256k1.order []
           sample_txid_bytes).
  - vm_compute. reflexivity.
  - discriminate.
Defined.

(** X8 on the script's identifier. *)
Lemma calculate_z_decodes_witness :
  exists bs,
    bytes_fromhex sample_txid = Return bs
    /\ bytes_fromhex
         "3ee6b3e10f178bb7a3df7ae32fd13854e6da1cd94e10129bd6186b6d7e41ab0d"
       = Return (Sha256.digest bs)
    /\ List.length (Sha256.digest bs) = 32%nat
    /\ pubkey_of_txid
         "3ee6b3e10f178bb7a3df7ae32fd13854e6da1cd94e10129bd6186b6d7e41ab0d"
       = Return (be_int (Sha256.digest bs)).
Proof.
  apply (calculate_z_text_decodes_to_the_digest sample_txid).
  vm_compute. reflexivity.
Defined.

(** X9 on the script's identifier. *)
Lemma key_material_bound_witness :
  exists bs,
    bytes_fromhex sample_txid = Return bs /\ bs <> []
    /\ 0x44b4cca7a2306c6af2a931a50f9138bf87bf13ba41cd5ce5b6239e930b34793e
       = be_int bs
    /\ 0 <= 0x44b4cca7a2306c6af2a931a50f9138bf87bf13ba41cd5ce5b6239e930b34793e
         < 256 ^ Z.of_nat (List.length bs).
Proof.
  apply (key_material_is_bounded_by_identifier_length sample_txid).
  vm_compute. reflexivity.
Defined.

(** X10 on an identifier of four bytes with a space in the middle. *)
Lemma white_space_witness :
  bytes_fromhex ("44b4" ++ String " " "cca7") = Return [x44; xb4; xcc; xa7]
  /\ calculate_z ("44b4" ++ String " " "cca7") = calculate_z ("44b4" ++ "cca7")
  /\ verify_signature CurveFp_order verdict_false
       ("44b4" ++ String " " "cca7")
       sample_r1 sample_s1 sample_z1 SECP256k1.order []
     = verify_signature CurveFp_order verdict_false ("44b4" ++ "cca7")
         sample_r1 sample_s1 sample_z1 SECP256k1.order [].
Proof.
  apply (white_space_between_bytes_is_ignored CurveFp_order verdict_false
           "44b4" " "%char "cca7" [x44; xb4] [x44; xb4; xcc; xa7]);
    reflexivity.
Defined.
